(** * MBRScan: the signature-scan / validate / parse / fingerprint pipeline

    A shallow embedding of [MBRScan._generator] from
    [volatility3/framework/plugins/windows/mbrscan.py], together with the
    collaborators it calls: [hashlib.md5] (RFC 1321), the physical layer
    ([layer.scan], [layer.read]) and the [PARTITION_TABLE] object. *)

From Stdlib Require Import ZArith List String Ascii Bool Lia.
From Stdlib.Strings Require Import Byte.
Import ListNotations.

Local Open Scope Z_scope.

(** ** Bytes *)

Definition bytes := list byte.

Definition byte_to_Z (b : byte) : Z := Z.of_N (Byte.to_N b).

Definition byte_of_Z (z : Z) : byte :=
  match Byte.of_N (Z.to_N (z mod 256)) with
  | Some b => b
  | None => x00
  end.

(** [len(b)] as a Python integer. *)
Definition len {A : Type} (b : list A) : Z := Z.of_nat (List.length b).

(** [b.count(sub)] for a one-byte [sub]: the number of positions of [b]
    holding that byte. *)
Fixpoint count (b : bytes) (sub : byte) : Z :=
  match b with
  | [] => 0
  | x :: rest => (if Byte.eqb x sub then 1 else 0) + count rest sub
  end.

(** ** hashlib.md5 *)

Module Hashlib.

Definition w32 (x : Z) : Z := Z.land x 0xFFFFFFFF.

Definition add32 (x y : Z) : Z := w32 (x + y).

Definition not32 (x : Z) : Z := Z.lxor x 0xFFFFFFFF.

Definition rotl32 (x c : Z) : Z :=
  w32 (Z.lor (Z.shiftl x c) (Z.shiftr x (32 - c))).

(** Per-round shift amounts. *)
Definition shifts : list Z :=
  [ 7; 12; 17; 22; 7; 12; 17; 22; 7; 12; 17; 22; 7; 12; 17; 22;
    5;  9; 14; 20; 5;  9; 14; 20; 5;  9; 14; 20; 5;  9; 14; 20;
    4; 11; 16; 23; 4; 11; 16; 23; 4; 11; 16; 23; 4; 11; 16; 23;
    6; 10; 15; 21; 6; 10; 15; 21; 6; 10; 15; 21; 6; 10; 15; 21 ].

(** [K[i] = floor(2^32 * abs(sin(i + 1)))]. *)
Definition K : list Z :=
  [ 0xd76aa478; 0xe8c7b756; 0x242070db; 0xc1bdceee;
    0xf57c0faf; 0x4787c62a; 0xa8304613; 0xfd469501;
    0x698098d8; 0x8b44f7af; 0xffff5bb1; 0x895cd7be;
    0x6b901122; 0xfd987193; 0xa679438e; 0x49b40821;
    0xf61e2562; 0xc040b340; 0x265e5a51; 0xe9b6c7aa;
    0xd62f105d; 0x02441453; 0xd8a1e681; 0xe7d3fbc8;
    0x21e1cde6; 0xc33707d6; 0xf4d50d87; 0x455a14ed;
    0xa9e3e905; 0xfcefa3f8; 0x676f02d9; 0x8d2a4c8a;
    0xfffa3942; 0x8771f681; 0x6d9d6122; 0xfde5380c;
    0xa4beea44; 0x4bdecfa9; 0xf6bb4b60; 0xbebfbc70;
    0x289b7ec6; 0xeaa127fa; 0xd4ef3085; 0x04881d05;
    0xd9d4d039; 0xe6db99e5; 0x1fa27cf8; 0xc4ac5665;
    0xf4292244; 0x432aff97; 0xab9423a7; 0xfc93a039;
    0x655b59c3; 0x8f0ccc92; 0xffeff47d; 0x85845dd1;
    0x6fa87e4f; 0xfe2ce6e0; 0xa3014314; 0x4e0811a1;
    0xf7537e82; 0xbd3af235; 0x2ad7d2bb; 0xeb86d391 ].

(** Little-endian encoding of the low [n] bytes of [x]. *)
Fixpoint le_bytes (n : nat) (x : Z) : bytes :=
  match n with
  | O => []
  | S n' => byte_of_Z x :: le_bytes n' (Z.shiftr x 8)
  end.

(** Little-endian decoding. *)
Fixpoint le_word (b : bytes) : Z :=
  match b with
  | [] => 0
  | x :: rest => byte_to_Z x + 256 * le_word rest
  end.

(** The message followed by 0x80, zero bytes up to 56 mod 64, and the bit
    length on 64 bits. *)
Definition pad (msg : bytes) : bytes :=
  let n := len msg in
  let zeros := (55 - n) mod 64 in
  msg ++ [x80] ++ repeat x00 (Z.to_nat zeros) ++ le_bytes 8 (8 * n).

(** The sixteen words of one 64-byte block. *)
Fixpoint words (n : nat) (block : bytes) : list Z :=
  match n with
  | O => []
  | S n' => le_word (firstn 4 block) :: words n' (skipn 4 block)
  end.

Record state := { sa : Z; sb : Z; sc : Z; sd : Z }.

Definition round (M : list Z) (st : state) (i : Z) : state :=
  let '(Build_state A B C D) := st in
  let '(F, g) :=
    if i <? 16 then (Z.lor (Z.land B C) (Z.land (not32 B) D), i)
    else if i <? 32 then (Z.lor (Z.land D B) (Z.land (not32 D) C), (5 * i + 1) mod 16)
    else if i <? 48 then (Z.lxor (Z.lxor B C) D, (3 * i + 5) mod 16)
    else (Z.lxor C (Z.lor B (not32 D)), (7 * i) mod 16) in
  let F' := add32 (add32 (add32 F A) (nth (Z.to_nat i) K 0)) (nth (Z.to_nat g) M 0) in
  {| sa := D; sd := C; sc := B;
     sb := add32 B (rotl32 F' (nth (Z.to_nat i) shifts 0)) |}.

Definition rounds : list Z := map Z.of_nat (seq 0 64).

Definition compress (st : state) (block : bytes) : state :=
  let M := words 16 block in
  let r := fold_left (round M) rounds st in
  {| sa := add32 (sa st) (sa r); sb := add32 (sb st) (sb r);
     sc := add32 (sc st) (sc r); sd := add32 (sd st) (sd r) |}.

Fixpoint blocks (n : nat) (st : state) (data : bytes) : state :=
  match n with
  | O => st
  | S n' => blocks n' (compress st (firstn 64 data)) (skipn 64 data)
  end.

Definition init : state :=
  {| sa := 0x67452301; sb := 0xefcdab89; sc := 0x98badcfe; sd := 0x10325476 |}.

(** [hashlib.md5(msg).digest()]. *)
Definition md5 (msg : bytes) : bytes :=
  let p := pad msg in
  let st := blocks (Nat.div (List.length p) 64) init p in
  le_bytes 4 (sa st) ++ le_bytes 4 (sb st) ++ le_bytes 4 (sc st) ++ le_bytes 4 (sd st).

Definition hex_digit (n : Z) : ascii :=
  nth (Z.to_nat n) (list_ascii_of_string "0123456789abcdef") "0"%char.

Fixpoint hexlify (b : bytes) : string :=
  match b with
  | [] => EmptyString
  | x :: rest =>
      String (hex_digit (byte_to_Z x / 16))
        (String (hex_digit (byte_to_Z x mod 16)) (hexlify rest))
  end.

(** [hashlib.md5(msg).hexdigest()]. *)
Definition md5_hexdigest (msg : bytes) : string := hexlify (md5 msg).

End Hashlib.

(** ** Exceptions and results *)

Inductive exn :=
| UnboundLocalError (name : string)
| InvalidAddressException (invalid_address : Z)
| LayerException (reason : string).

Inductive result (A : Type) :=
| Ok (a : A)
| Raise (e : exn).

Arguments Ok {A} a.
Arguments Raise {A} e.

Definition bind {A B : Type} (m : result A) (k : A -> result B) : result B :=
  match m with
  | Ok a => k a
  | Raise e => Raise e
  end.

Notation "x <- m ;; k" := (bind m (fun x => k))
  (at level 61, m at next level, right associativity).

(** ** The collaborators of the plugin *)

(** The four members of [PARTITION_TABLE] that hold a [PARTITION_ENTRY]. *)
Inductive member := FirstEntry | SecondEntry | ThirdEntry | FourthEntry.

(** What [_generator] reaches through [self.context]: the physical layer
    ([layer_scan pattern] is the sequence of offsets produced by
    [layer.scan] with a [MultiStringScanner] on [pattern], [layer_read] is
    [layer.read]), the bitness of the kernel symbol table, and the
    [PARTITION_TABLE] object placed at an offset of the layer
    ([get_disk_signature start] is its method of that name,
    [entry_str start m index] is [str] of its member [m] after
    [set_index(index)]).  [Raise] is an exception raised by the call. *)
Record Context := {
  layer_scan : bytes -> list Z;
  layer_read : Z -> Z -> bool -> result bytes;
  symbol_table_is_64bit : bool;
  get_disk_signature : Z -> result string;
  entry_str : Z -> member -> Z -> result string
}.

Inductive loglevel := LOGLEVEL_V | LOGLEVEL_VV | LOGLEVEL_VVV.

(** [interfaces.renderers.Disassembly(data, offset, architecture)]. *)
Record Disassembly := {
  dis_data : bytes;
  dis_offset : Z;
  dis_architecture : string
}.

(** The tuple yielded for one sector, column by column. *)
Record Row := {
  row_offset : Z;                  (* format_hints.Hex(offset) *)
  row_disk_signature : string;     (* partition_table.get_disk_signature() *)
  row_bootcode_hash : string;
  row_full_bootcode_hash : string;
  row_partition_info : string;
  row_disasm : Disassembly;
  row_hexdump : bytes              (* format_hints.HexBytes(boot_code) *)
}.

(** What a run of the generator does, in order: the calls of [layer.read],
    the rows it yields (with their tree level) and the entries it logs
    (level, message, and the offset formatted into the message). *)
Inductive event :=
| EvRead (offset length : Z) (pad : bool)
| EvYield (level : Z) (row : Row)
| EvLog (level : loglevel) (message : string) (offset : Z).

(** How a run ends: the loop is exhausted, or an exception leaves the
    generator. *)
Inductive outcome := Finished | Raised (e : exn).

(** ** MBRScan._generator *)

Definition mbr_signature : bytes := [x55; xaa].
Definition mbr_length : Z := 0x200.
Definition boot_code_length : Z := 0x1B8.

Definition mbr_start_offset (offset : Z) : Z :=
  offset - (mbr_length - len mbr_signature).

(** [b[:n]]. *)
Definition slice_to (b : bytes) (n : Z) : bytes := firstn (Z.to_nat n) b.

Definition boot_code_of (full_mbr : bytes) : bytes :=
  slice_to full_mbr boot_code_length.

(** Truth value of a bytes object. *)
Definition truthy (b : bytes) : bool :=
  match b with [] => false | _ :: _ => true end.

(** [boot_code.count(b"\x00") == len(boot_code)]. *)
Definition zero_test (boot_code : bytes) : bool :=
  count boot_code x00 =? len boot_code.

(** The local variable [all_zeros] after lines 59-60: [None] while it is
    unbound. *)
Definition bind_all_zeros (all_zeros : option bool) (boot_code : bytes)
  : option bool :=
  if truthy boot_code then Some (zero_test boot_code) else all_zeros.

Definition architecture (ctx : Context) : string :=
  if negb (symbol_table_is_64bit ctx) then "intel" else "intel64".

Definition enumerate {A : Type} (l : list A) : list (Z * A) :=
  combine (map Z.of_nat (seq 0 (List.length l))) l.

Definition partition_entries : list member :=
  [FirstEntry; SecondEntry; ThirdEntry; FourthEntry].

(** The loop of lines 70-72, from the value of [partition_info] so far. *)
Fixpoint partition_info_loop (ctx : Context) (start : Z)
  (entries : list (Z * member)) (partition_info : string) : result string :=
  match entries with
  | [] => Ok partition_info
  | (index, m) :: rest =>
      s <- entry_str ctx start m index ;;
      partition_info_loop ctx start rest (partition_info ++ s)
  end.

(** Lines 63-82: the branch taken when [all_zeros] is false. *)
Definition make_row (ctx : Context) (offset : Z) (full_mbr : bytes)
  : result Row :=
  let boot_code := boot_code_of full_mbr in
  let bootcode_hash := Hashlib.md5_hexdigest boot_code in
  let full_bootcode_hash := Hashlib.md5_hexdigest full_mbr in
  partition_info <-
    partition_info_loop ctx (mbr_start_offset offset)
      (enumerate partition_entries) "" ;;
  disk_signature <- get_disk_signature ctx (mbr_start_offset offset) ;;
  Ok {| row_offset := offset;
        row_disk_signature := disk_signature;
        row_bootcode_hash := bootcode_hash;
        row_full_bootcode_hash := full_bootcode_hash;
        row_partition_info := partition_info;
        row_disasm := {| dis_data := boot_code; dis_offset := 0;
                         dis_architecture := architecture ctx |};
        row_hexdump := boot_code |}.

Definition not_valid_message : string :=
  "Not a valid MBR: Data all zeroed out : ".

(** One iteration of the loop of line 52, for the hit at [offset], entered
    with the local [all_zeros] as the previous iterations left it.  Returns
    the events of the iteration and either the value of [all_zeros] at its
    end or the exception that leaves it.  Line 54 places the
    [PARTITION_TABLE] object at [start]: a structure object reads its
    members when they are used, so the object is [start] itself and the
    reads happen in [make_row]. *)
Definition loop_body (ctx : Context) (all_zeros : option bool) (offset : Z)
  : list event * result (option bool) :=
  let start := mbr_start_offset offset in
  let rd := EvRead start mbr_length true in
  match layer_read ctx start mbr_length true with
  | Raise e => ([rd], Raise e)
  | Ok full_mbr =>
      let boot_code := boot_code_of full_mbr in
      match bind_all_zeros all_zeros boot_code with
      | None => ([rd], Raise (UnboundLocalError "all_zeros"))
      | Some az =>
          if negb az then
            match make_row ctx offset full_mbr with
            | Raise e => ([rd], Raise e)
            | Ok row => ([rd; EvYield 0 row], Ok (Some az))
            end
          else ([rd; EvLog LOGLEVEL_VV not_valid_message offset], Ok (Some az))
      end
  end.

(** The loop of line 52 over the remaining hits. *)
Fixpoint loop (ctx : Context) (all_zeros : option bool) (hits : list Z)
  : list event * outcome :=
  match hits with
  | [] => ([], Finished)
  | offset :: rest =>
      match loop_body ctx all_zeros offset with
      | (evs, Raise e) => (evs, Raised e)
      | (evs, Ok all_zeros') =>
          let '(evs', o) := loop ctx all_zeros' rest in (evs ++ evs', o)
      end
  end.

Definition _generator (ctx : Context) : list event * outcome :=
  loop ctx None (layer_scan ctx mbr_signature).

(** The rows, log entries and read calls of a trace. *)
Definition rows (tr : list event) : list Row :=
  flat_map (fun ev => match ev with EvYield _ r => [r] | _ => [] end) tr.

Definition logs (tr : list event) : list (loglevel * Z) :=
  flat_map (fun ev => match ev with EvLog l _ o => [(l, o)] | _ => [] end) tr.

Definition reads (tr : list event) : list (Z * Z * bool) :=
  flat_map (fun ev => match ev with EvRead o n p => [(o, n, p)] | _ => [] end) tr.

(** ** An address space held in memory *)

Module AddressSpace.

Fixpoint starts_with (pattern data : bytes) : bool :=
  match pattern, data with
  | [], _ => true
  | _ :: _, [] => false
  | p :: ps, d :: ds => Byte.eqb p d && starts_with ps ds
  end.

(** Modelled from the spec: the [scan] capability of AddressSpace (the
    scanner of the layers package is not part of the plugin's file):
    the ascending sequence of the positions at which [pattern] occurs,
    [pos] being the position of the head of [data]. *)
Fixpoint scan_from (pattern data : bytes) (pos : Z) : list Z :=
  match data with
  | [] => []
  | _ :: rest =>
      (if starts_with pattern data then [pos] else [])
        ++ scan_from pattern rest (pos + 1)
  end.

(** Modelled from the spec: the [read] capability of AddressSpace (the
    layer classes are not part of the plugin's file): exactly [length]
    bytes from [offset], the part past the end of the space filled with
    zero bytes when [pad] is set; a range that leaves the space is an
    invalid address otherwise, and so is a negative offset. *)
Definition read (data : bytes) (offset length : Z) (pad : bool)
  : result bytes :=
  if (offset <? 0) || (length <? 0) then
    Raise (InvalidAddressException offset)
  else
    let chunk := firstn (Z.to_nat length) (skipn (Z.to_nat offset) data) in
    if len chunk <? length then
      if pad then Ok (chunk ++ repeat x00 (Z.to_nat (length - len chunk)))
      else Raise (InvalidAddressException (len data))
    else Ok chunk.

(** Modelled from the spec: DiskSignature, the 4 bytes at offset 0x1B8 of
    the sector read as a little-endian unsigned integer; the accessor of
    the symbol extension is not part of the plugin's file, the value is
    rendered here as eight hexadecimal digits. *)
Definition disk_signature (data : bytes) (start : Z) : result string :=
  raw <- read data (start + 0x1B8) 4 false ;;
  Ok (Hashlib.hexlify (rev raw)).

Definition member_index (m : member) : Z :=
  match m with
  | FirstEntry => 0 | SecondEntry => 1 | ThirdEntry => 2 | FourthEntry => 3
  end.

(** Modelled from the spec: a PartitionEntry, the 16-byte record at
    offset 0x1BE + 16 * k of the sector, described with its index label;
    the text of the symbol extension is not part of the plugin's file,
    the description here is the index digit followed by the sixteen raw
    bytes in hexadecimal. *)
Definition partition_entry_str (data : bytes) (start : Z) (m : member)
  (index : Z) : result string :=
  raw <- read data (start + 0x1BE + 16 * member_index m) 16 false ;;
  Ok ("[" ++ String (Hashlib.hex_digit index) (":" ++ Hashlib.hexlify raw ++ "]"))%string.

Definition context (data : bytes) (is_64bit : bool) : Context :=
  {| layer_scan := fun pattern => scan_from pattern data 0;
     layer_read := read data;
     symbol_table_is_64bit := is_64bit;
     get_disk_signature := disk_signature data;
     entry_str := partition_entry_str data |}.

End AddressSpace.

(** ** Sample address spaces *)

(** 510 zero bytes, the magic, 466 zero bytes. *)
Definition zeroed_space : bytes :=
  repeat x00 510 ++ mbr_signature ++ repeat x00 466.

(** One sector: non-zero boot code, disk signature 01 02 03 04, entry 0
    active of type 0x07 starting at LBA 2048 with 204800 sectors, entries
    1-3 zero, the magic. *)
Definition sample_sector : bytes :=
  [xfa; x33; xc0; x8e; xd0] ++ repeat x90 435
  ++ [x01; x02; x03; x04] ++ [x00; x00]
  ++ ([x80; x20; x21; x00; x07; xfe; xff; xff]
        ++ Hashlib.le_bytes 4 2048 ++ Hashlib.le_bytes 4 204800)
  ++ repeat x00 48
  ++ mbr_signature.

(** Two bytes of magic at offset 0, then [sample_sector]: hits at 0 and at
    512. *)
Definition low_hit_space : bytes := mbr_signature ++ sample_sector.

(** The row expected from the scan of [sample_sector] on a 32-bit kernel. *)
Definition sample_row : Row :=
  {| row_offset := 510;
     row_disk_signature := "04030201";
     row_bootcode_hash := "b16ebfbb2a5ef2b71ac4b52100aee2af";
     row_full_bootcode_hash := "07becccde16870d89e6d2650ec1abf69";
     row_partition_info :=
       "[0:8020210007feffff0008000000200300][1:00000000000000000000000000000000][2:00000000000000000000000000000000][3:00000000000000000000000000000000]";
     row_disasm := {| dis_data := boot_code_of sample_sector; dis_offset := 0;
                      dis_architecture := "intel" |};
     row_hexdump := boot_code_of sample_sector |}.

(** A layer that answers from a script: the hits of the scan, and the
    buffer [layer.read] returns at each offset. *)
Fixpoint lookup (o : Z) (script : list (Z * bytes)) : option bytes :=
  match script with
  | [] => None
  | (k, b) :: rest => if k =? o then Some b else lookup o rest
  end.

Definition scripted (hits : list Z) (script : list (Z * bytes)) : Context :=
  {| layer_scan := fun _ => hits;
     layer_read := fun o _ _ =>
       match lookup o script with
       | Some b => Ok b
       | None => Raise (InvalidAddressException o)
       end;
     symbol_table_is_64bit := false;
     get_disk_signature := fun _ => Ok "sig"%string;
     entry_str := fun _ _ _ => Ok "entry;"%string |}.

(** ** Vocabulary of the properties *)

(** The design's validator predicate: every byte of the slice is 0x00. *)
Definition all_bytes_zero (b : bytes) : bool :=
  forallb (fun x => Byte.eqb x x00) b.

Definition lower_hex_digits : list ascii :=
  list_ascii_of_string "0123456789abcdef".

Definition is_lower_hex (c : ascii) : bool :=
  existsb (Ascii.eqb c) lower_hex_digits.

(** A string of lowercase hexadecimal digits. *)
Definition lower_hex (s : string) : Prop :=
  Forall (fun c => is_lower_hex c = true) (list_ascii_of_string s).

(** The row [r] is yielded by the run of the generator on [ctx]. *)
Definition emitted (ctx : Context) (r : Row) : Prop :=
  In r (rows (fst (_generator ctx))).

(** The contract of a padded read: as many bytes as asked for. *)
Definition padded_read_exact (ctx : Context) : Prop :=
  forall o n b, 0 <= n -> layer_read ctx o n true = Ok b -> len b = n.


(** ** The plugin object *)

Module Plugin.

(** A Python mapping with string keys, as the list of its items; the first
    item of a key is the one found. *)
Definition dict (V : Type) : Type := list (string * V).

(** [d.get(key, None)]. *)
Fixpoint dict_get {V : Type} (d : dict V) (key : string) : option V :=
  match d with
  | [] => None
  | (k, v) :: rest => if String.eqb k key then Some v else dict_get rest key
  end.

(** What leaves the generator before the loop: the [KeyError] of a
    subscript (with the key, [None] included), or an exception of a
    framework call. *)
Inductive setup_exn :=
| KeyError (key : option string)
| FrameworkError (e : exn).

Inductive setup (A : Type) :=
| Ready (a : A)
| Failed (e : setup_exn).

Arguments Ready {A} a.
Arguments Failed {A} e.

Definition and_then {A B : Type} (m : setup A) (k : A -> setup B) : setup B :=
  match m with
  | Ready a => k a
  | Failed e => Failed e
  end.

(** [d[key]]. *)
Definition subscript {V : Type} (d : dict V) (key : string) : setup V :=
  match dict_get d key with
  | Some v => Ready v
  | None => Failed (KeyError (Some key))
  end.

(** [d[key]] for a key that may be [None]; the containers hold string keys
    only. *)
Definition subscript_opt {V : Type} (d : dict V) (key : option string)
  : setup V :=
  match key with
  | Some k => subscript d k
  | None => Failed (KeyError None)
  end.

Definition framework {A : Type} (m : result A) : setup A :=
  match m with
  | Ok a => Ready a
  | Raise e => Failed (FrameworkError e)
  end.

(** A module of [context.modules], by the two attributes the plugin reads. *)
Record ModuleObject := {
  layer_name : string;
  symbol_table_name : string
}.

(** A layer of [context.layers]: its name, its configuration, and its
    [scan] and [read] as in [Context]. *)
Record LayerObject := {
  name : string;
  layer_config : dict string;
  scan : bytes -> list Z;
  read : Z -> Z -> bool -> result bytes
}.

(** [self.context], by what lines 31-54 use of it: the two containers,
    [symbols.symbol_table_is_64bit] by table name,
    [IntermediateSymbolTable.create] by configuration path, sub path and
    file name (the name of the table it creates), and the accessors of the
    object [context.object] places, by type name, layer name and offset. *)
Record ContextObject := {
  modules : dict ModuleObject;
  layers : dict LayerObject;
  symbols_symbol_table_is_64bit : string -> result bool;
  symbol_table_create : string -> string -> string -> result string;
  object_disk_signature : string -> string -> Z -> result string;
  object_entry_str : string -> string -> Z -> member -> Z -> result string
}.

Record MBRScan := {
  context : ContextObject;
  config : dict string;
  config_path : string
}.

(** [requirements.ModuleRequirement(name, description, architectures)]. *)
Record ModuleRequirement := {
  req_name : string;
  req_description : string;
  req_architectures : list string
}.

(** Lines 23-28. *)
Definition get_requirements : list ModuleRequirement :=
  [ {| req_name := "kernel"; req_description := "Windows kernel";
       req_architectures := ["Intel32"; "Intel64"]%string |} ].

Definition BANG : string := "!".

(** Lines 31-46: what the loop works on, or the exception raised on the
    way. *)
Definition resolve (self : MBRScan) : setup Context :=
  let ctx := context self in
  and_then (subscript (config self) "kernel") (fun kernel_name =>
  and_then (subscript (modules ctx) kernel_name) (fun kernel =>
  and_then (subscript (layers ctx) (layer_name kernel)) (fun kernel_layer =>
  let physical_layer_name := dict_get (layer_config kernel_layer) "memory_layer" in
  and_then (subscript_opt (layers ctx) physical_layer_name) (fun layer =>
  and_then (framework (symbols_symbol_table_is_64bit ctx (symbol_table_name kernel)))
    (fun is_64bit =>
  and_then (framework (symbol_table_create ctx (config_path self) "windows" "mbr"))
    (fun symbol_table =>
  let partition_table_object :=
    (symbol_table ++ BANG ++ "PARTITION_TABLE")%string in
  Ready {| layer_scan := scan layer;
           layer_read := read layer;
           symbol_table_is_64bit := is_64bit;
           get_disk_signature :=
             object_disk_signature ctx partition_table_object (name layer);
           entry_str :=
             object_entry_str ctx partition_table_object (name layer) |})))))).

(** How a run of the whole generator ends. *)
Inductive plugin_outcome :=
| SetupRaised (e : setup_exn)
| Loop (o : outcome).

(** Lines 30-84. *)
Definition generator (self : MBRScan) : list event * plugin_outcome :=
  match resolve self with
  | Failed e => ([], SetupRaised e)
  | Ready ctx => let '(tr, o) := _generator ctx in (tr, Loop o)
  end.

(** [self] run with another configuration. *)
Definition with_config (self : MBRScan) (config' : dict string) : MBRScan :=
  {| context := context self; config := config';
     config_path := config_path self |}.

(** [self] with the layer [l] put under [key] in [context.layers], in place
    of the one there. *)
Definition with_layer (self : MBRScan) (key : string) (l : LayerObject)
  : MBRScan :=
  {| context :=
       {| modules := modules (context self);
          layers := (key, l) :: layers (context self);
          symbols_symbol_table_is_64bit :=
            symbols_symbol_table_is_64bit (context self);
          symbol_table_create := symbol_table_create (context self);
          object_disk_signature := object_disk_signature (context self);
          object_entry_str := object_entry_str (context self) |};
     config := config self;
     config_path := config_path self |}.

End Plugin.

(** A plugin on [sample_sector] held as the layer "memory_layer", below the
    kernel's layer "layer_name". *)
Definition sample_physical_layer : Plugin.LayerObject :=
  {| Plugin.name := "memory_layer";
     Plugin.layer_config := [];
     Plugin.scan := fun pattern => AddressSpace.scan_from pattern sample_sector 0;
     Plugin.read := AddressSpace.read sample_sector |}.

Definition sample_kernel_layer (cfg : Plugin.dict string) : Plugin.LayerObject :=
  {| Plugin.name := "layer_name";
     Plugin.layer_config := cfg;
     Plugin.scan := fun _ => [];
     Plugin.read := fun o _ _ => Raise (InvalidAddressException o) |}.

Definition sample_plugin (cfg : Plugin.dict string) (config : Plugin.dict string)
  : Plugin.MBRScan :=
  {| Plugin.context :=
       {| Plugin.modules :=
            [("kernel"%string,
              {| Plugin.layer_name := "layer_name";
                 Plugin.symbol_table_name := "symbol_table_name1" |})];
          Plugin.layers :=
            [("layer_name"%string, sample_kernel_layer cfg);
             ("memory_layer"%string, sample_physical_layer)];
          Plugin.symbols_symbol_table_is_64bit := fun _ => Ok false;
          Plugin.symbol_table_create := fun _ _ _ => Ok "mbr1"%string;
          Plugin.object_disk_signature := fun _ _ =>
            AddressSpace.disk_signature sample_sector;
          Plugin.object_entry_str := fun _ _ =>
            AddressSpace.partition_entry_str sample_sector |};
     Plugin.config := config;
     Plugin.config_path := "plugins.MBRScan" |}.

(** ** More vocabulary *)

(** [l1] is [l2] with some elements left out, the order kept. *)
Inductive subseq {A : Type} : list A -> list A -> Prop :=
| subseq_nil : subseq [] []
| subseq_skip (x : A) (l1 l2 : list A) : subseq l1 l2 -> subseq l1 (x :: l2)
| subseq_take (x : A) (l1 l2 : list A) : subseq l1 l2 -> subseq (x :: l1) (x :: l2).

(** [r] is the row assembled for the hit at [offset] from the sector read
    for it. *)
Definition row_of_hit (ctx : Context) (offset : Z) (r : Row) : Prop :=
  exists full_mbr,
    layer_read ctx (mbr_start_offset offset) mbr_length true = Ok full_mbr /\
    make_row ctx offset full_mbr = Ok r.

(** * Properties *)

(** ** Byte counting *)

Lemma count_bounds (b : bytes) (s : byte) : 0 <= count b s <= len b.
Proof.
  unfold len. induction b as [|x b IH]; simpl List.length; simpl count.
  - lia.
  - destruct (Byte.eqb x s); lia.
Qed.

Lemma count_full_iff (b : bytes) (s : byte) :
  count b s = len b <-> forall x, In x b -> x = s.
Proof.
  induction b as [|x b IH].
  - split; [intros _ y [] | reflexivity].
  - pose proof (count_bounds b s) as Hb.
    unfold len in *. simpl List.length. simpl count.
    destruct (Byte.eqb x s) eqn:E.
    + apply Byte.byte_dec_bl in E. subst x. split.
      * intros H y [<-|Hy]; [reflexivity|]. apply IH; [lia | exact Hy].
      * intros H. assert (count b s = Z.of_nat (List.length b)) as ->.
        { apply IH. intros y Hy. apply H. right. exact Hy. }
        lia.
    + split.
      * intros H. lia.
      * intros H. specialize (H x (or_introl eq_refl)). subst x.
        rewrite (@Byte.byte_dec_lb s s eq_refl) in E. discriminate.
Qed.

Lemma all_bytes_zero_iff (b : bytes) :
  all_bytes_zero b = true <-> forall x, In x b -> x = x00.
Proof.
  unfold all_bytes_zero. rewrite forallb_forall. split; intros H x Hx.
  - apply Byte.byte_dec_bl. apply H. exact Hx.
  - apply Byte.byte_dec_lb. apply H. exact Hx.
Qed.

Lemma zero_test_iff (b : bytes) :
  zero_test b = true <-> forall x, In x b -> x = x00.
Proof.
  unfold zero_test. rewrite Z.eqb_eq. apply count_full_iff.
Qed.

Lemma zero_test_all_bytes_zero (b : bytes) : zero_test b = all_bytes_zero b.
Proof.
  apply eq_true_iff_eq. rewrite zero_test_iff, all_bytes_zero_iff. reflexivity.
Qed.

(** C10: for every non-empty byte buffer, the validator's test (the count of
    0x00 bytes equals the length) holds exactly when every byte is 0x00: it
    agrees with the all-bytes-zero predicate of the design. *)
Theorem C10_zero_test_is_all_bytes_zero (b : bytes) :
  b <> [] ->
  zero_test b = all_bytes_zero b /\
  (count b x00 = len b <-> forall x, In x b -> x = x00).
Proof.
  intros _. split.
  - apply zero_test_all_bytes_zero.
  - apply count_full_iff.
Qed.

Lemma C10_zero_test_witness :
  [x00; x00; x01] <> [] /\
  zero_test [x00; x00; x01] = all_bytes_zero [x00; x00; x01] /\
  (count [x00; x00; x01] x00 = len [x00; x00; x01]
   <-> forall x, In x [x00; x00; x01] -> x = x00).
Proof.
  split; [discriminate|].
  apply (C10_zero_test_is_all_bytes_zero [x00; x00; x01]). discriminate.
Defined.

(** ** Digests *)

Lemma le_bytes_length (n : nat) (x : Z) : List.length (Hashlib.le_bytes n x) = n.
Proof.
  revert x. induction n as [|n IH]; intros x; simpl; [reflexivity|].
  rewrite IH. reflexivity.
Qed.

Lemma md5_length (msg : bytes) : List.length (Hashlib.md5 msg) = 16%nat.
Proof.
  unfold Hashlib.md5. cbv zeta.
  rewrite !length_app, !le_bytes_length. reflexivity.
Qed.

Lemma hexlify_length (b : bytes) :
  String.length (Hashlib.hexlify b) = (2 * List.length b)%nat.
Proof.
  induction b as [|x b IH]; simpl; [reflexivity|].
  rewrite IH. lia.
Qed.

Lemma lower_hex_digit_in (c : ascii) :
  In c lower_hex_digits -> is_lower_hex c = true.
Proof.
  intros H. unfold is_lower_hex. apply existsb_exists.
  exists c. split; [exact H | apply Ascii.eqb_refl].
Qed.

Lemma hex_digit_lower (n : Z) : is_lower_hex (Hashlib.hex_digit n) = true.
Proof.
  unfold Hashlib.hex_digit. fold lower_hex_digits.
  destruct (nth_in_or_default (Z.to_nat n) lower_hex_digits "0"%char) as [H|H].
  - apply lower_hex_digit_in. exact H.
  - rewrite H. reflexivity.
Qed.

Lemma hexlify_lower (b : bytes) : lower_hex (Hashlib.hexlify b).
Proof.
  unfold lower_hex. induction b as [|x b IH]; simpl.
  - constructor.
  - constructor; [apply hex_digit_lower|].
    constructor; [apply hex_digit_lower | exact IH].
Qed.

Lemma md5_hexdigest_length (msg : bytes) :
  String.length (Hashlib.md5_hexdigest msg) = 32%nat.
Proof.
  unfold Hashlib.md5_hexdigest. rewrite hexlify_length, md5_length. reflexivity.
Qed.

(** ** The loop *)

Lemma make_row_inv (ctx : Context) (offset : Z) (full_mbr : bytes) (r : Row) :
  make_row ctx offset full_mbr = Ok r ->
  exists partition_info disk_signature,
    partition_info_loop ctx (mbr_start_offset offset)
      (enumerate partition_entries) "" = Ok partition_info /\
    get_disk_signature ctx (mbr_start_offset offset) = Ok disk_signature /\
    r = {| row_offset := offset;
           row_disk_signature := disk_signature;
           row_bootcode_hash := Hashlib.md5_hexdigest (boot_code_of full_mbr);
           row_full_bootcode_hash := Hashlib.md5_hexdigest full_mbr;
           row_partition_info := partition_info;
           row_disasm := {| dis_data := boot_code_of full_mbr; dis_offset := 0;
                            dis_architecture := architecture ctx |};
           row_hexdump := boot_code_of full_mbr |}.
Proof.
  unfold make_row. cbv zeta.
  destruct (partition_info_loop _ _ _ _) as [info|e]; simpl; [|discriminate].
  destruct (get_disk_signature _ _) as [sig|e]; simpl; [|discriminate].
  intros H. injection H as <-. exists info, sig. repeat split.
Qed.

Lemma loop_body_reads (ctx : Context) (st : option bool) (offset : Z) :
  reads (fst (loop_body ctx st offset))
  = [(mbr_start_offset offset, mbr_length, true)].
Proof.
  unfold loop_body. cbv zeta.
  destruct (layer_read _ _ _ _) as [full_mbr|e]; [|reflexivity].
  destruct (bind_all_zeros _ _) as [az|]; [|reflexivity].
  destruct az; simpl; [reflexivity|].
  destruct (make_row _ _ _); reflexivity.
Qed.

Lemma loop_body_rows_inv (ctx : Context) (st : option bool) (offset : Z) (r : Row) :
  In r (rows (fst (loop_body ctx st offset))) ->
  exists full_mbr,
    layer_read ctx (mbr_start_offset offset) mbr_length true = Ok full_mbr /\
    bind_all_zeros st (boot_code_of full_mbr) = Some false /\
    make_row ctx offset full_mbr = Ok r /\
    loop_body ctx st offset
    = ([EvRead (mbr_start_offset offset) mbr_length true; EvYield 0 r],
       Ok (Some false)).
Proof.
  unfold loop_body. cbv zeta.
  destruct (layer_read _ _ _ _) as [full_mbr|e]; [|intros []].
  destruct (bind_all_zeros _ _) as [az|] eqn:Haz; [|intros []].
  destruct az; simpl; [intros []|].
  destruct (make_row _ _ _) as [row|e] eqn:Hrow; simpl; [|intros []].
  intros [<-|[]]. exists full_mbr. repeat split; assumption.
Qed.

Lemma rows_app (a b : list event) : rows (a ++ b) = rows a ++ rows b.
Proof. unfold rows. apply flat_map_app. Qed.

Lemma reads_app (a b : list event) : reads (a ++ b) = reads a ++ reads b.
Proof. unfold reads. apply flat_map_app. Qed.

Lemma loop_rows_inv (ctx : Context) (hits : list Z) :
  forall (st : option bool) (r : Row),
    In r (rows (fst (loop ctx st hits))) ->
    exists st' offset,
      In offset hits /\ In r (rows (fst (loop_body ctx st' offset))).
Proof.
  induction hits as [|offset rest IH]; intros st r; simpl.
  - intros [].
  - destruct (loop_body ctx st offset) as [evs [st1|e]] eqn:Hbody.
    + destruct (loop ctx st1 rest) as [evs' o] eqn:Hrest. simpl.
      rewrite rows_app. intros H. apply in_app_or in H. destruct H as [H|H].
      * exists st, offset. split; [left; reflexivity|].
        rewrite Hbody. exact H.
      * destruct (IH st1 r) as (st' & p & Hp & Hr).
        { rewrite Hrest. exact H. }
        exists st', p. split; [right; exact Hp | exact Hr].
    + simpl. intros H. exists st, offset. split; [left; reflexivity|].
      rewrite Hbody. exact H.
Qed.

(** A prefix of the hits that is processed to its end is followed by the
    rest of the hits, entered with some value of [all_zeros]. *)
Lemma loop_app (ctx : Context) (pre post : list Z) :
  forall st : option bool,
    snd (loop ctx st pre) = Finished ->
    exists st',
      loop ctx st (pre ++ post)
      = (fst (loop ctx st pre) ++ fst (loop ctx st' post),
         snd (loop ctx st' post)).
Proof.
  induction pre as [|offset pre IH]; intros st; simpl.
  - intros _. exists st. destruct (loop ctx st post); reflexivity.
  - destruct (loop_body ctx st offset) as [evs [st1|e]]; [|discriminate].
    specialize (IH st1).
    destruct (loop ctx st1 pre) as [evs1 o1]. simpl in *.
    intros Ho. destruct (IH Ho) as [st' ->]. exists st'.
    simpl. rewrite app_assoc. reflexivity.
Qed.

(** The reads of a run are those of the hits, in the order of the scan, up
    to the hit at which the run ends. *)
Lemma loop_reads (ctx : Context) (hits : list Z) :
  forall st : option bool,
    exists k,
      reads (fst (loop ctx st hits))
      = map (fun p => (mbr_start_offset p, mbr_length, true)) (firstn k hits).
Proof.
  induction hits as [|offset rest IH]; intros st; simpl.
  - exists 0%nat. reflexivity.
  - pose proof (loop_body_reads ctx st offset) as Hr.
    destruct (loop_body ctx st offset) as [evs [st1|e]]; simpl in Hr.
    + destruct (IH st1) as [k Hk].
      destruct (loop ctx st1 rest) as [evs' o]. simpl in *.
      exists (S k). rewrite reads_app, Hr, Hk. reflexivity.
    + exists 1%nat. simpl. rewrite Hr. reflexivity.
Qed.

(** Every emitted row comes from one hit of the scan, whose sector was
    read, passed the validator and was assembled by [make_row]. *)
Lemma emitted_inv (ctx : Context) (r : Row) :
  emitted ctx r ->
  exists st offset full_mbr,
    In offset (layer_scan ctx mbr_signature) /\
    layer_read ctx (mbr_start_offset offset) mbr_length true = Ok full_mbr /\
    bind_all_zeros st (boot_code_of full_mbr) = Some false /\
    make_row ctx offset full_mbr = Ok r.
Proof.
  unfold emitted, _generator. intros H.
  apply loop_rows_inv in H. destruct H as (st & offset & Hin & Hr).
  apply loop_body_rows_inv in Hr. destruct Hr as (full_mbr & Hread & Haz & Hrow & _).
  exists st, offset, full_mbr. repeat split; assumption.
Qed.

(** ** The in-memory address space honours the read contract *)

Lemma read_padded_length (data : bytes) (o n : Z) (b : bytes) :
  0 <= n -> AddressSpace.read data o n true = Ok b -> len b = n.
Proof.
  intros Hn. unfold AddressSpace.read.
  destruct ((o <? 0) || (n <? 0)); [discriminate|]. cbv zeta.
  set (chunk := firstn (Z.to_nat n) (skipn (Z.to_nat o) data)).
  assert (len chunk <= n) as Hle.
  { unfold len, chunk. pose proof (firstn_le_length (Z.to_nat n) (skipn (Z.to_nat o) data)). lia. }
  destruct (len chunk <? n) eqn:Hlt.
  - intros H. injection H as <-. apply Z.ltb_lt in Hlt.
    unfold len in *. rewrite length_app, repeat_length. lia.
  - intros H. injection H as <-. apply Z.ltb_ge in Hlt. lia.
Qed.

Lemma read_padded_total (data : bytes) (o n : Z) :
  0 <= o -> 0 <= n -> exists b, AddressSpace.read data o n true = Ok b.
Proof.
  intros Ho Hn. unfold AddressSpace.read.
  destruct (o <? 0) eqn:E1; [apply Z.ltb_lt in E1; lia|].
  destruct (n <? 0) eqn:E2; [apply Z.ltb_lt in E2; lia|].
  simpl. destruct (_ <? n); eexists; reflexivity.
Qed.

Lemma in_memory_padded_read_exact (data : bytes) (is_64bit : bool) :
  padded_read_exact (AddressSpace.context data is_64bit).
Proof.
  intros o n b Hn H. simpl in H. eapply read_padded_length; eassumption.
Qed.

Lemma boot_code_of_length (full_mbr : bytes) :
  len full_mbr = 512 -> len (boot_code_of full_mbr) = 440.
Proof.
  unfold boot_code_of, slice_to, len. intros H.
  rewrite length_firstn. change (Z.to_nat boot_code_length) with 440%nat. lia.
Qed.

(** A read of 512 bytes asked 10 bytes before the end of the space: the
    10 bytes there, then 502 zero bytes. *)
Example read_near_end :
  AddressSpace.read (repeat x41 100) 90 512 true
  = Ok (repeat x41 10 ++ repeat x00 502).
Proof. reflexivity. Qed.

(** ** The claims *)

(** C1: the claim wants the physical-offset column of an emitted row to be
    the sector start, the match offset minus 510.  On the one-sector sample
    the scanner hits the magic at 510, the sector starts at 0, and the row
    carries 510: the column holds the match offset itself. *)
Theorem C1_row_offset_on_sample_sector :
  layer_scan (AddressSpace.context sample_sector false) mbr_signature = [510] /\
  mbr_start_offset 510 = 0 /\
  map row_offset (rows (fst (_generator (AddressSpace.context sample_sector false))))
  = [510].
Proof. vm_compute. repeat split. Qed.

(** The column is the match offset for every emitted row. *)
Lemma emitted_row_offset (ctx : Context) (r : Row) :
  emitted ctx r -> In (row_offset r) (layer_scan ctx mbr_signature).
Proof.
  intros H. apply emitted_inv in H.
  destruct H as (st & offset & full_mbr & Hin & _ & _ & Hrow).
  apply make_row_inv in Hrow. destruct Hrow as (info & sig & _ & _ & ->).
  exact Hin.
Qed.

(** C3: a hit whose 440-byte boot code is all 0x00 yields no row; the
    iteration reads the sector, writes one entry at the verbose level
    [LOGLEVEL_VV] that carries the offset, and the loop goes on with the next
    hit. *)
Theorem C3_zero_boot_code_is_logged (ctx : Context) (pre rest : list Z)
  (offset : Z) (full_mbr : bytes) :
  layer_scan ctx mbr_signature = pre ++ offset :: rest ->
  snd (loop ctx None pre) = Finished ->
  layer_read ctx (mbr_start_offset offset) mbr_length true = Ok full_mbr ->
  boot_code_of full_mbr = repeat x00 440 ->
  exists st,
    fst (loop_body ctx st offset)
    = [EvRead (mbr_start_offset offset) mbr_length true;
       EvLog LOGLEVEL_VV not_valid_message offset] /\
    rows (fst (loop_body ctx st offset)) = [] /\
    logs (fst (loop_body ctx st offset)) = [(LOGLEVEL_VV, offset)] /\
    _generator ctx
    = (fst (loop ctx None pre) ++ fst (loop_body ctx st offset)
         ++ fst (loop ctx (Some true) rest),
       snd (loop ctx (Some true) rest)).
Proof.
  intros Hscan Hpre Hread Hzero.
  destruct (loop_app ctx pre (offset :: rest) None Hpre) as [st Hloop].
  exists st.
  assert (loop_body ctx st offset
          = ([EvRead (mbr_start_offset offset) mbr_length true;
              EvLog LOGLEVEL_VV not_valid_message offset], Ok (Some true))) as Hbody.
  { unfold loop_body. cbv zeta. rewrite Hread, Hzero. reflexivity. }
  rewrite Hbody. repeat split.
  unfold _generator. rewrite Hscan, Hloop. simpl. rewrite Hbody.
  destruct (loop ctx (Some true) rest) as [evs o]. reflexivity.
Qed.

Lemma C3_zero_boot_code_witness :
  exists st,
    rows (fst (loop_body (AddressSpace.context zeroed_space false) st 510)) = [] /\
    logs (fst (loop_body (AddressSpace.context zeroed_space false) st 510))
    = [(LOGLEVEL_VV, 510)] /\
    _generator (AddressSpace.context zeroed_space false)
    = ([EvRead 0 512 true; EvLog LOGLEVEL_VV not_valid_message 510], Finished).
Proof.
  destruct (C3_zero_boot_code_is_logged (AddressSpace.context zeroed_space false)
              [] [] 510 (repeat x00 510 ++ mbr_signature))
    as (st & Hevs & Hrows & Hlogs & Hgen);
    [reflexivity | reflexivity | reflexivity | reflexivity |].
  exists st. split; [exact Hrows|]. split; [exact Hlogs|].
  rewrite Hgen, Hevs. reflexivity.
Defined.

Lemma string_append_assoc (a b c : string) :
  ((a ++ b) ++ c = a ++ (b ++ c))%string.
Proof.
  induction a as [|x a IH]; simpl; [reflexivity|]. rewrite IH. reflexivity.
Qed.

Lemma partition_info_loop_four (ctx : Context) (start : Z) (info : string) :
  partition_info_loop ctx start (enumerate partition_entries) "" = Ok info ->
  exists s0 s1 s2 s3,
    entry_str ctx start FirstEntry 0 = Ok s0 /\
    entry_str ctx start SecondEntry 1 = Ok s1 /\
    entry_str ctx start ThirdEntry 2 = Ok s2 /\
    entry_str ctx start FourthEntry 3 = Ok s3 /\
    info = (s0 ++ s1 ++ s2 ++ s3)%string.
Proof.
  simpl.
  destruct (entry_str ctx start FirstEntry 0) as [s0|e]; simpl; [|discriminate].
  destruct (entry_str ctx start SecondEntry 1) as [s1|e]; simpl; [|discriminate].
  destruct (entry_str ctx start ThirdEntry 2) as [s2|e]; simpl; [|discriminate].
  destruct (entry_str ctx start FourthEntry 3) as [s3|e]; simpl; [|discriminate].
  intros H. injection H as <-. exists s0, s1, s2, s3.
  repeat split. rewrite !string_append_assoc. reflexivity.
Qed.

(** C5: the partition-entries text of every emitted row is made of the four
    entries of the table at the sector start, [FirstEntry] to [FourthEntry]
    in that order, each described after being given the index 0, 1, 2, 3;
    none is left out, whatever its bytes. *)
Theorem C5_four_entries_in_order (ctx : Context) (r : Row) :
  emitted ctx r ->
  exists s0 s1 s2 s3,
    let start := mbr_start_offset (row_offset r) in
    entry_str ctx start FirstEntry 0 = Ok s0 /\
    entry_str ctx start SecondEntry 1 = Ok s1 /\
    entry_str ctx start ThirdEntry 2 = Ok s2 /\
    entry_str ctx start FourthEntry 3 = Ok s3 /\
    row_partition_info r = (s0 ++ s1 ++ s2 ++ s3)%string.
Proof.
  intros H. apply emitted_inv in H.
  destruct H as (st & offset & full_mbr & _ & _ & _ & Hrow).
  apply make_row_inv in Hrow. destruct Hrow as (info & sig & Hinfo & _ & ->).
  simpl. apply partition_info_loop_four. exact Hinfo.
Qed.

Lemma sample_row_emitted :
  emitted (AddressSpace.context sample_sector false) sample_row.
Proof. unfold emitted. vm_compute. left. reflexivity. Qed.

Lemma C5_four_entries_witness :
  emitted (AddressSpace.context sample_sector false) sample_row /\
  exists s0 s1 s2 s3,
    AddressSpace.partition_entry_str sample_sector 0 FirstEntry 0 = Ok s0 /\
    AddressSpace.partition_entry_str sample_sector 0 SecondEntry 1 = Ok s1 /\
    AddressSpace.partition_entry_str sample_sector 0 ThirdEntry 2 = Ok s2 /\
    AddressSpace.partition_entry_str sample_sector 0 FourthEntry 3 = Ok s3 /\
    row_partition_info sample_row = (s0 ++ s1 ++ s2 ++ s3)%string.
Proof.
  split; [exact sample_row_emitted|].
  exact (C5_four_entries_in_order (AddressSpace.context sample_sector false)
           sample_row sample_row_emitted).
Defined.

(** The full-sector digest is not the continuation of the boot-code digest:
    a hash object fed the boot code and then the sector would give the
    digest of their concatenation. *)
Example digests_not_chained :
  row_full_bootcode_hash sample_row
  <> Hashlib.md5_hexdigest (boot_code_of sample_sector ++ sample_sector).
Proof. vm_compute. discriminate. Qed.

(** The run on [low_hit_space]: the read at -510 is refused and the valid
    sector behind the second hit is never reached. *)
Example low_hit_space_run :
  layer_scan (AddressSpace.context low_hit_space false) mbr_signature = [0; 512] /\
  _generator (AddressSpace.context low_hit_space false)
  = ([EvRead (-510) 512 true], Raised (InvalidAddressException (-510))).
Proof. vm_compute. split; reflexivity. Qed.

Lemma make_row_raise_inv (ctx : Context) (offset : Z) (full_mbr : bytes) (e : exn) :
  make_row ctx offset full_mbr = Raise e ->
  (exists index m,
     In (index, m) (enumerate partition_entries) /\
     entry_str ctx (mbr_start_offset offset) m index = Raise e) \/
  get_disk_signature ctx (mbr_start_offset offset) = Raise e.
Proof.
  unfold make_row. cbv zeta. simpl.
  destruct (entry_str ctx _ FirstEntry 0) eqn:E0; simpl;
    [|intros H; injection H as <-; left; exists 0, FirstEntry; simpl; auto].
  destruct (entry_str ctx _ SecondEntry 1) eqn:E1; simpl;
    [|intros H; injection H as <-; left; exists 1, SecondEntry; simpl; auto].
  destruct (entry_str ctx _ ThirdEntry 2) eqn:E2; simpl;
    [|intros H; injection H as <-; left; exists 2, ThirdEntry; simpl; auto].
  destruct (entry_str ctx _ FourthEntry 3) eqn:E3; simpl;
    [|intros H; injection H as <-; left; exists 3, FourthEntry; simpl; auto 6].
  destruct (get_disk_signature ctx _) eqn:Es; simpl; [discriminate|].
  intros H. injection H as <-. right. reflexivity.
Qed.




(** ** Further properties of the loop *)

(** The three ways an iteration can go. *)
Lemma loop_body_cases (ctx : Context) (st : option bool) (offset : Z) :
  (exists e,
     loop_body ctx st offset
     = ([EvRead (mbr_start_offset offset) mbr_length true], Raise e)) \/
  (exists full_mbr r,
     layer_read ctx (mbr_start_offset offset) mbr_length true = Ok full_mbr /\
     bind_all_zeros st (boot_code_of full_mbr) = Some false /\
     make_row ctx offset full_mbr = Ok r /\
     loop_body ctx st offset
     = ([EvRead (mbr_start_offset offset) mbr_length true; EvYield 0 r],
        Ok (Some false))) \/
  (exists full_mbr,
     layer_read ctx (mbr_start_offset offset) mbr_length true = Ok full_mbr /\
     bind_all_zeros st (boot_code_of full_mbr) = Some true /\
     loop_body ctx st offset
     = ([EvRead (mbr_start_offset offset) mbr_length true;
         EvLog LOGLEVEL_VV not_valid_message offset], Ok (Some true))).
Proof.
  unfold loop_body. cbv zeta.
  destruct (layer_read _ _ _ _) as [full_mbr|e]; [|left; eauto].
  destruct (bind_all_zeros _ _) as [[|]|] eqn:Haz; simpl.
  - right. right. exists full_mbr. auto.
  - destruct (make_row _ _ _) as [r|e] eqn:Hrow.
    + right. left. exists full_mbr, r. auto.
    + left. eauto.
  - left. eauto.
Qed.

Lemma loop_events_inv (ctx : Context) (hits : list Z) :
  forall (st : option bool) (ev : event),
    In ev (fst (loop ctx st hits)) ->
    exists st' offset,
      In offset hits /\ In ev (fst (loop_body ctx st' offset)).
Proof.
  induction hits as [|offset rest IH]; intros st ev; simpl.
  - intros [].
  - destruct (loop_body ctx st offset) as [evs [st1|e]] eqn:Hbody.
    + destruct (loop ctx st1 rest) as [evs' o] eqn:Hrest. simpl.
      intros H. apply in_app_or in H. destruct H as [H|H].
      * exists st, offset. split; [left; reflexivity|]. rewrite Hbody. exact H.
      * destruct (IH st1 ev) as (st' & p & Hp & Hev).
        { rewrite Hrest. exact H. }
        exists st', p. split; [right; exact Hp | exact Hev].
    + simpl. intros H. exists st, offset. split; [left; reflexivity|].
      rewrite Hbody. exact H.
Qed.

Lemma rows_in_scan_order (ctx : Context) (hits : list Z) :
  forall st : option bool,
    (exists hs,
       subseq hs hits /\ Forall2 (row_of_hit ctx) hs (rows (fst (loop ctx st hits)))) /\
    subseq (map snd (logs (fst (loop ctx st hits)))) hits.
Proof.
  induction hits as [|offset rest IH]; intros st; simpl.
  - split; [exists []; split; constructor | constructor].
  - destruct (loop_body_cases ctx st offset)
      as [(e & ->) | [(full_mbr & r & Hread & _ & Hrow & ->) | (full_mbr & _ & _ & ->)]].
    + simpl. split.
      * exists []. split; [|constructor].
        constructor. clear. induction rest; constructor; assumption.
      * constructor. clear. induction rest; constructor; assumption.
    + destruct (IH (Some false)) as ((hs & Hsub & Hall) & Hlogs).
      destruct (loop ctx (Some false) rest) as [evs o]. simpl in *. split.
      * exists (offset :: hs). split; [apply subseq_take; exact Hsub|].
        constructor; [|exact Hall]. exists full_mbr. split; assumption.
      * apply subseq_skip. exact Hlogs.
    + destruct (IH (Some true)) as ((hs & Hsub & Hall) & Hlogs).
      destruct (loop ctx (Some true) rest) as [evs o]. simpl in *. split.
      * exists hs. split; [apply subseq_skip; exact Hsub | exact Hall].
      * apply subseq_take. exact Hlogs.
Qed.

(** X1: the rows come out in the order of the scan, at most one per hit:
    they are, in order, the rows assembled for a subsequence of the hits;
    the logged offsets are a subsequence of the hits as well. *)
Theorem X1_rows_follow_scan_order (ctx : Context) :
  (exists hs,
     subseq hs (layer_scan ctx mbr_signature) /\
     Forall2 (row_of_hit ctx) hs (rows (fst (_generator ctx)))) /\
  subseq (map snd (logs (fst (_generator ctx)))) (layer_scan ctx mbr_signature).
Proof. unfold _generator. apply rows_in_scan_order. Qed.

Lemma loop_counts (ctx : Context) (hits : list Z) :
  forall st : option bool,
    match snd (loop ctx st hits) with
    | Finished =>
        List.length (reads (fst (loop ctx st hits))) = List.length hits /\
        (List.length (rows (fst (loop ctx st hits)))
         + List.length (logs (fst (loop ctx st hits))))%nat = List.length hits
    | Raised _ =>
        (List.length (reads (fst (loop ctx st hits))) <= List.length hits)%nat /\
        (List.length (rows (fst (loop ctx st hits)))
         + List.length (logs (fst (loop ctx st hits))) + 1)%nat
        = List.length (reads (fst (loop ctx st hits)))
    end.
Proof.
  induction hits as [|offset rest IH]; intros st; simpl.
  - split; reflexivity.
  - destruct (loop_body_cases ctx st offset)
      as [(e & ->) | [(full_mbr & r & _ & _ & _ & ->) | (full_mbr & _ & _ & ->)]].
    + simpl. split; lia.
    + specialize (IH (Some false)).
      destruct (loop ctx (Some false) rest) as [evs [|e]]; simpl in *; lia.
    + specialize (IH (Some true)).
      destruct (loop ctx (Some true) rest) as [evs [|e]]; simpl in *; lia.
Qed.

(** X2: in a run that reaches the end of the scan every hit is read once
    and answered once, by a row or by a log entry: the reads are as many as
    the hits, and so are the rows and log entries together. *)
Theorem X2_every_hit_gives_a_row_or_a_log (ctx : Context) :
  snd (_generator ctx) = Finished ->
  List.length (reads (fst (_generator ctx)))
  = List.length (layer_scan ctx mbr_signature) /\
  (List.length (rows (fst (_generator ctx)))
   + List.length (logs (fst (_generator ctx))))%nat
  = List.length (layer_scan ctx mbr_signature).
Proof.
  unfold _generator. intros H.
  pose proof (loop_counts ctx (layer_scan ctx mbr_signature) None) as Hc.
  rewrite H in Hc. exact Hc.
Qed.

Lemma X2_row_or_log_witness :
  snd (_generator (AddressSpace.context (zeroed_space ++ sample_sector) false))
  = Finished /\
  List.length (reads (fst (_generator
    (AddressSpace.context (zeroed_space ++ sample_sector) false)))) = 2%nat /\
  (List.length (rows (fst (_generator
     (AddressSpace.context (zeroed_space ++ sample_sector) false))))
   + List.length (logs (fst (_generator
     (AddressSpace.context (zeroed_space ++ sample_sector) false)))))%nat = 2%nat.
Proof.
  assert (snd (_generator (AddressSpace.context (zeroed_space ++ sample_sector) false))
          = Finished) as Hfin by (vm_compute; reflexivity).
  split; [exact Hfin|].
  exact (X2_every_hit_gives_a_row_or_a_log
           (AddressSpace.context (zeroed_space ++ sample_sector) false) Hfin).
Defined.

(** X3: a run that is stopped by an exception has answered every hit it
    read but the last: its rows and log entries together are one fewer than
    its reads. *)
Theorem X3_failed_run_counts (ctx : Context) (e : exn) :
  snd (_generator ctx) = Raised e ->
  (List.length (reads (fst (_generator ctx)))
   <= List.length (layer_scan ctx mbr_signature))%nat /\
  (List.length (rows (fst (_generator ctx)))
   + List.length (logs (fst (_generator ctx))) + 1)%nat
  = List.length (reads (fst (_generator ctx))).
Proof.
  unfold _generator. intros H.
  pose proof (loop_counts ctx (layer_scan ctx mbr_signature) None) as Hc.
  rewrite H in Hc. exact Hc.
Qed.

Lemma X3_failed_run_witness :
  snd (_generator (AddressSpace.context low_hit_space false))
  = Raised (InvalidAddressException (-510)) /\
  (List.length (reads (fst (_generator (AddressSpace.context low_hit_space false))))
   <= List.length (layer_scan (AddressSpace.context low_hit_space false) mbr_signature))%nat /\
  (List.length (rows (fst (_generator (AddressSpace.context low_hit_space false))))
   + List.length (logs (fst (_generator (AddressSpace.context low_hit_space false))))
   + 1)%nat
  = List.length (reads (fst (_generator (AddressSpace.context low_hit_space false)))).
Proof.
  assert (snd (_generator (AddressSpace.context low_hit_space false))
          = Raised (InvalidAddressException (-510))) as Hraised
    by (vm_compute; reflexivity).
  split; [exact Hraised|].
  exact (X3_failed_run_counts (AddressSpace.context low_hit_space false)
           (InvalidAddressException (-510)) Hraised).
Defined.

(** ** The loop over a layer that honours the read contract *)

Lemma bind_all_zeros_truthy (st : option bool) (b : bytes) :
  truthy b = true -> bind_all_zeros st b = Some (zero_test b).
Proof. unfold bind_all_zeros. intros ->. reflexivity. Qed.

Lemma padded_boot_code (ctx : Context) (offset : Z) (full_mbr : bytes) :
  padded_read_exact ctx ->
  layer_read ctx (mbr_start_offset offset) mbr_length true = Ok full_mbr ->
  len (boot_code_of full_mbr) = 440 /\ truthy (boot_code_of full_mbr) = true.
Proof.
  intros Hpad Hread.
  assert (len full_mbr = 512) as Hlen.
  { apply (Hpad (mbr_start_offset offset) 512); [lia | exact Hread]. }
  pose proof (boot_code_of_length full_mbr Hlen) as Hbc.
  split; [exact Hbc|].
  destruct (boot_code_of full_mbr); [discriminate Hbc | reflexivity].
Qed.

Lemma not_all_zero_exists (b : bytes) :
  zero_test b = false -> exists x, In x b /\ x <> x00.
Proof.
  rewrite zero_test_all_bytes_zero. unfold all_bytes_zero.
  induction b as [|y b IH]; simpl; [discriminate|].
  destruct (Byte.eqb y x00) eqn:E; simpl.
  - intros H. destruct (IH H) as (x & Hx & Hne). exists x. split; [right|]; assumption.
  - intros _. exists y. split; [left; reflexivity|].
    intros ->. rewrite (@Byte.byte_dec_lb x00 x00 eq_refl) in E. discriminate.
Qed.

Lemma all_zero_repeat (b : bytes) :
  zero_test b = true -> b = repeat x00 (List.length b).
Proof.
  rewrite zero_test_iff. induction b as [|y b IH]; intros H; simpl; [reflexivity|].
  rewrite (H y (or_introl eq_refl)). f_equal.
  apply IH. intros x Hx. apply H. right. exact Hx.
Qed.


(** X4: over a layer that honours the contract of a padded read, every
    emitted row carries a boot code of 440 bytes with at least one byte
    that is not 0x00; the disassembly of the row is of that same boot code,
    from origin 0, tagged "intel64" for a 64-bit symbol table and "intel"
    otherwise. *)
Theorem X4_emitted_boot_code_is_not_zeroed (ctx : Context) (r : Row) :
  padded_read_exact ctx ->
  emitted ctx r ->
  len (row_hexdump r) = 440 /\
  (exists x, In x (row_hexdump r) /\ x <> x00) /\
  dis_data (row_disasm r) = row_hexdump r /\
  dis_offset (row_disasm r) = 0 /\
  dis_architecture (row_disasm r)
  = (if symbol_table_is_64bit ctx then "intel64" else "intel")%string.
Proof.
  intros Hpad H. apply emitted_inv in H.
  destruct H as (st & offset & full_mbr & _ & Hread & Haz & Hrow).
  destruct (padded_boot_code ctx offset full_mbr Hpad Hread) as [Hlen Htr].
  rewrite (bind_all_zeros_truthy st _ Htr) in Haz. injection Haz as Hz.
  apply make_row_inv in Hrow. destruct Hrow as (info & sig & _ & _ & ->).
  cbn [row_hexdump row_disasm dis_data dis_offset dis_architecture].
  split; [exact Hlen|]. split; [apply not_all_zero_exists; exact Hz|].
  split; [reflexivity|]. split; [reflexivity|].
  unfold architecture. destruct (symbol_table_is_64bit ctx); reflexivity.
Qed.

Lemma X4_emitted_boot_code_witness :
  padded_read_exact (AddressSpace.context sample_sector false) /\
  emitted (AddressSpace.context sample_sector false) sample_row /\
  len (row_hexdump sample_row) = 440 /\
  (exists x, In x (row_hexdump sample_row) /\ x <> x00) /\
  dis_data (row_disasm sample_row) = row_hexdump sample_row /\
  dis_offset (row_disasm sample_row) = 0 /\
  dis_architecture (row_disasm sample_row) = "intel"%string.
Proof.
  split; [apply in_memory_padded_read_exact|].
  split; [exact sample_row_emitted|].
  exact (X4_emitted_boot_code_is_not_zeroed
           (AddressSpace.context sample_sector false) sample_row
           (in_memory_padded_read_exact sample_sector false) sample_row_emitted).
Defined.

Lemma loop_body_state_irrelevant (ctx : Context) (st st' : option bool) (offset : Z) :
  padded_read_exact ctx -> loop_body ctx st offset = loop_body ctx st' offset.
Proof.
  intros Hpad. unfold loop_body. cbv zeta.
  destruct (layer_read _ _ _ _) as [full_mbr|e] eqn:Hread; [|reflexivity].
  destruct (padded_boot_code ctx offset full_mbr Hpad Hread) as [_ Htr].
  rewrite !(bind_all_zeros_truthy _ _ Htr). reflexivity.
Qed.

Lemma loop_state_irrelevant (ctx : Context) (st st' : option bool) (hits : list Z) :
  padded_read_exact ctx -> loop ctx st hits = loop ctx st' hits.
Proof.
  intros Hpad. destruct hits as [|offset rest]; simpl; [reflexivity|].
  rewrite (loop_body_state_irrelevant ctx st st' offset Hpad). reflexivity.
Qed.

(** X5: over a layer that honours the contract of a padded read no state
    passes from one hit to the next: the loop gives the same events and
    outcome whatever [all_zeros] holds on entry, and the run over hits
    [pre ++ post], when [pre] is processed to its end, is the run over [pre]
    followed by the run over [post] taken on its own. *)
Theorem X5_hits_are_processed_independently (ctx : Context) (pre post : list Z) :
  padded_read_exact ctx ->
  layer_scan ctx mbr_signature = pre ++ post ->
  snd (loop ctx None pre) = Finished ->
  (forall st hits, loop ctx st hits = loop ctx None hits) /\
  _generator ctx
  = (fst (loop ctx None pre) ++ fst (loop ctx None post),
     snd (loop ctx None post)).
Proof.
  intros Hpad Hscan Hpre. split.
  - intros st hits. apply loop_state_irrelevant. exact Hpad.
  - unfold _generator. rewrite Hscan.
    destruct (loop_app ctx pre post None Hpre) as [st ->].
    rewrite (loop_state_irrelevant ctx st None post Hpad). reflexivity.
Qed.

Lemma X5_independent_hits_witness :
  padded_read_exact (AddressSpace.context (zeroed_space ++ sample_sector) false) /\
  rows (fst (_generator (AddressSpace.context (zeroed_space ++ sample_sector) false)))
  = rows (fst (loop (AddressSpace.context (zeroed_space ++ sample_sector) false)
                 None [510]))
    ++ rows (fst (loop (AddressSpace.context (zeroed_space ++ sample_sector) false)
                    None [1488])).
Proof.
  split; [apply in_memory_padded_read_exact|].
  destruct (X5_hits_are_processed_independently
              (AddressSpace.context (zeroed_space ++ sample_sector) false)
              [510] [1488] (in_memory_padded_read_exact _ false))
    as [_ Hgen]; [vm_compute; reflexivity | vm_compute; reflexivity |].
  rewrite Hgen. cbn [fst]. apply rows_app.
Defined.




(** X7: over a layer that honours the contract of a padded read, every log
    entry of a run is at the level [LOGLEVEL_VV], carries the fixed message
    and the offset of a hit of the scan, and the sector read for that hit
    has a boot code of 440 bytes 0x00. *)
Theorem X7_logged_hits_are_zeroed (ctx : Context) (lvl : loglevel)
  (msg : string) (offset : Z) :
  padded_read_exact ctx ->
  In (EvLog lvl msg offset) (fst (_generator ctx)) ->
  lvl = LOGLEVEL_VV /\
  msg = not_valid_message /\
  In offset (layer_scan ctx mbr_signature) /\
  exists full_mbr,
    layer_read ctx (mbr_start_offset offset) mbr_length true = Ok full_mbr /\
    boot_code_of full_mbr = repeat x00 440.
Proof.
  intros Hpad H. unfold _generator in H.
  apply loop_events_inv in H. destruct H as (st & p & Hin & Hev).
  destruct (loop_body_cases ctx st p)
    as [(e & Hb) | [(full_mbr & r & _ & _ & _ & Hb) | (full_mbr & Hread & Haz & Hb)]];
    rewrite Hb in Hev; simpl in Hev.
  - destruct Hev as [Hev|[]]. discriminate Hev.
  - destruct Hev as [Hev|[Hev|[]]]; discriminate Hev.
  - destruct Hev as [Hev|[Hev|[]]]; [discriminate Hev|].
    injection Hev as <- <- <-.
    split; [reflexivity|]. split; [reflexivity|]. split; [exact Hin|].
    exists full_mbr. split; [exact Hread|].
    destruct (padded_boot_code ctx p full_mbr Hpad Hread) as [Hlen Htr].
    rewrite (bind_all_zeros_truthy st _ Htr) in Haz. injection Haz as Hz.
    rewrite (all_zero_repeat _ Hz). f_equal. unfold len in Hlen. lia.
Qed.

Lemma X7_logged_hits_witness :
  padded_read_exact (AddressSpace.context zeroed_space false) /\
  In (EvLog LOGLEVEL_VV not_valid_message 510)
     (fst (_generator (AddressSpace.context zeroed_space false))) /\
  exists full_mbr,
    AddressSpace.read zeroed_space (mbr_start_offset 510) mbr_length true
    = Ok full_mbr /\
    boot_code_of full_mbr = repeat x00 440.
Proof.
  assert (In (EvLog LOGLEVEL_VV not_valid_message 510)
            (fst (_generator (AddressSpace.context zeroed_space false)))) as Hin
    by (vm_compute; right; left; reflexivity).
  split; [apply in_memory_padded_read_exact|]. split; [exact Hin|].
  exact (proj2 (proj2 (proj2
           (X7_logged_hits_are_zeroed (AddressSpace.context zeroed_space false)
              LOGLEVEL_VV not_valid_message 510
              (in_memory_padded_read_exact zeroed_space false) Hin)))).
Defined.



(** ** The sector of a hit in the in-memory address space *)

Lemma starts_with_prefix (pattern data : bytes) :
  AddressSpace.starts_with pattern data = true ->
  exists tl, data = pattern ++ tl.
Proof.
  revert data. induction pattern as [|p ps IH]; intros data; simpl.
  - intros _. exists data. reflexivity.
  - destruct data as [|d ds]; [discriminate|].
    intros H. apply andb_prop in H. destruct H as [Hp Hs].
    apply Byte.byte_dec_bl in Hp. subst d.
    destruct (IH ds Hs) as [tl ->]. exists tl. reflexivity.
Qed.

Lemma scan_from_sound (pattern data : bytes) :
  forall pos p,
    In p (AddressSpace.scan_from pattern data pos) ->
    pos <= p /\
    AddressSpace.starts_with pattern (skipn (Z.to_nat (p - pos)) data) = true.
Proof.
  induction data as [|a rest IH]; intros pos p; simpl AddressSpace.scan_from.
  - intros [].
  - intros H. apply in_app_or in H. destruct H as [H|H].
    + destruct (AddressSpace.starts_with pattern (a :: rest)) eqn:E; [|destruct H].
      destruct H as [<-|[]]. split; [lia|].
      replace (pos - pos) with 0 by lia. exact E.
    + destruct (IH (pos + 1) p H) as [Hle Hs]. split; [lia|].
      replace (Z.to_nat (p - pos)) with (S (Z.to_nat (p - (pos + 1)))) by lia.
      exact Hs.
Qed.

(** X9: in the in-memory address space the sector read for a hit at 510 or
    beyond is 512 bytes of the space itself, none of them padding, and its
    last two bytes are the magic the scanner found: the start offset of line
    53 puts the signature at bytes 510 and 511 of the sector. *)
Theorem X9_sector_of_a_hit_ends_with_the_magic (data : bytes) (is_64bit : bool) (p : Z) :
  In p (layer_scan (AddressSpace.context data is_64bit) mbr_signature) ->
  510 <= p ->
  exists full_mbr,
    layer_read (AddressSpace.context data is_64bit) (mbr_start_offset p)
      mbr_length true = Ok full_mbr /\
    full_mbr = firstn 512 (skipn (Z.to_nat (p - 510)) data) /\
    len full_mbr = 512 /\
    skipn 510 full_mbr = mbr_signature.
Proof.
  simpl layer_scan. simpl layer_read. intros Hin Hp.
  apply scan_from_sound in Hin. destruct Hin as [_ Hs].
  apply starts_with_prefix in Hs. destruct Hs as [tl Htl].
  replace (p - 0) with p in Htl by lia.
  set (X := skipn (Z.to_nat (p - 510)) data).
  assert (skipn 510 X = mbr_signature ++ tl) as HX.
  { unfold X. rewrite skipn_skipn.
    replace (510 + Z.to_nat (p - 510))%nat with (Z.to_nat p) by lia. exact Htl. }
  assert (512 <= List.length X)%nat as HlenX.
  { pose proof (f_equal (@List.length byte) HX) as HL.
    rewrite length_skipn in HL. simpl in HL. lia. }
  assert (List.length (firstn 512 X) = 512%nat) as Hlen.
  { rewrite length_firstn. lia. }
  exists (firstn 512 X).
  split; [|split; [reflexivity | split; [unfold len; rewrite Hlen; reflexivity|]]].
  - change (mbr_start_offset p) with (p - 510). change mbr_length with 512.
    unfold AddressSpace.read.
    destruct (p - 510 <? 0) eqn:E1; [apply Z.ltb_lt in E1; lia|].
    simpl orb. cbv zeta. fold X. change (Z.to_nat 512) with 512%nat.
    unfold len. rewrite Hlen. reflexivity.
  - rewrite skipn_firstn_comm. change (512 - 510)%nat with 2%nat.
    rewrite HX. reflexivity.
Qed.

Lemma X9_sector_of_a_hit_witness :
  In 1488 (layer_scan (AddressSpace.context (zeroed_space ++ sample_sector) false)
             mbr_signature) /\
  exists full_mbr,
    AddressSpace.read (zeroed_space ++ sample_sector) (mbr_start_offset 1488)
      mbr_length true = Ok full_mbr /\
    full_mbr = firstn 512 (skipn (Z.to_nat (1488 - 510)) (zeroed_space ++ sample_sector)) /\
    len full_mbr = 512 /\
    skipn 510 full_mbr = mbr_signature.
Proof.
  assert (In 1488 (layer_scan (AddressSpace.context (zeroed_space ++ sample_sector) false)
                     mbr_signature)) as Hin
    by (vm_compute; right; left; reflexivity).
  split; [exact Hin|].
  apply (X9_sector_of_a_hit_ends_with_the_magic
           (zeroed_space ++ sample_sector) false 1488 Hin). lia.
Defined.

(** ** Before the loop *)

(** X10: when the configuration names a kernel module and that module's
    layer is in the context, the run dies on [KeyError(None)], before any
    read, exactly when the configuration of that layer has no
    'memory_layer': the default [None] of line 32 is used as the key of
    line 34. *)
Theorem X10_missing_memory_layer_is_a_key_error (self : Plugin.MBRScan)
  (kernel_name : string) (kernel : Plugin.ModuleObject)
  (kernel_layer : Plugin.LayerObject) :
  Plugin.dict_get (Plugin.config self) "kernel" = Some kernel_name ->
  Plugin.dict_get (Plugin.modules (Plugin.context self)) kernel_name = Some kernel ->
  Plugin.dict_get (Plugin.layers (Plugin.context self)) (Plugin.layer_name kernel)
  = Some kernel_layer ->
  (Plugin.generator self = ([], Plugin.SetupRaised (Plugin.KeyError None))
   <-> Plugin.dict_get (Plugin.layer_config kernel_layer) "memory_layer" = None).
Proof.
  intros Hk Hm Hl. unfold Plugin.generator, Plugin.resolve, Plugin.subscript.
  cbv zeta. rewrite Hk. simpl Plugin.and_then. rewrite Hm. simpl Plugin.and_then.
  rewrite Hl. simpl Plugin.and_then.
  destruct (Plugin.dict_get (Plugin.layer_config kernel_layer) "memory_layer")
    as [phys|]; simpl.
  - split; [|discriminate]. unfold Plugin.subscript.
    destruct (Plugin.dict_get (Plugin.layers (Plugin.context self)) phys)
      as [layer|]; simpl; [|discriminate].
    destruct (Plugin.symbols_symbol_table_is_64bit _ _); simpl; [|discriminate].
    destruct (Plugin.symbol_table_create _ _ _ _); simpl; [|discriminate].
    destruct (_generator _). discriminate.
  - split; reflexivity.
Qed.

Lemma X10_missing_memory_layer_witness :
  Plugin.generator (sample_plugin [] [("kernel", "kernel")]%string)
  = ([], Plugin.SetupRaised (Plugin.KeyError None))
  <-> Plugin.dict_get (Plugin.layer_config (sample_kernel_layer [])) "memory_layer"
      = None.
Proof.
  exact (X10_missing_memory_layer_is_a_key_error
           (sample_plugin [] [("kernel", "kernel")]%string) "kernel"
           {| Plugin.layer_name := "layer_name";
              Plugin.symbol_table_name := "symbol_table_name1" |}
           (sample_kernel_layer []) eq_refl eq_refl eq_refl).
Defined.

(** X11: of the configuration the generator reads the entries that
    [get_requirements] declares and no other: run with a configuration
    that agrees with its own on the name of every requirement, the plugin
    gives the same events and the same outcome. *)
Theorem X11_only_required_configuration_is_read (self : Plugin.MBRScan)
  (config' : Plugin.dict string) :
  (forall req, In req Plugin.get_requirements ->
     Plugin.dict_get config' (Plugin.req_name req)
     = Plugin.dict_get (Plugin.config self) (Plugin.req_name req)) ->
  Plugin.generator (Plugin.with_config self config') = Plugin.generator self.
Proof.
  intros H. specialize (H _ (or_introl eq_refl)). simpl Plugin.req_name in H.
  unfold Plugin.generator, Plugin.resolve, Plugin.subscript. cbv zeta.
  simpl Plugin.config. simpl Plugin.context. simpl Plugin.config_path.
  rewrite H. reflexivity.
Qed.

Lemma X11_required_configuration_witness :
  Plugin.generator
    (Plugin.with_config
       (sample_plugin [("memory_layer", "memory_layer")] [("kernel", "kernel")])
       [("verbose", "1"); ("kernel", "kernel"); ("kernel", "other")])%string
  = Plugin.generator
      (sample_plugin [("memory_layer", "memory_layer")] [("kernel", "kernel")])%string.
Proof.
  apply X11_only_required_configuration_is_read.
  intros req [<-|[]]. reflexivity.
Defined.

(** X12: the scan and the reads go to the physical layer, never to the
    kernel's own layer: when the 'memory_layer' of the kernel's layer names
    another layer, putting any layer with the same configuration in the
    place of the kernel's layer changes neither the events nor the outcome
    of the run. *)
Theorem X12_kernel_layer_is_never_read (self : Plugin.MBRScan)
  (kernel_name physical : string) (kernel : Plugin.ModuleObject)
  (kernel_layer other : Plugin.LayerObject) :
  Plugin.dict_get (Plugin.config self) "kernel" = Some kernel_name ->
  Plugin.dict_get (Plugin.modules (Plugin.context self)) kernel_name = Some kernel ->
  Plugin.dict_get (Plugin.layers (Plugin.context self)) (Plugin.layer_name kernel)
  = Some kernel_layer ->
  Plugin.dict_get (Plugin.layer_config kernel_layer) "memory_layer" = Some physical ->
  physical <> Plugin.layer_name kernel ->
  Plugin.layer_config other = Plugin.layer_config kernel_layer ->
  Plugin.generator (Plugin.with_layer self (Plugin.layer_name kernel) other)
  = Plugin.generator self.
Proof.
  intros Hk Hm Hl Hphys Hne Hcfg.
  unfold Plugin.generator, Plugin.resolve, Plugin.subscript. cbv zeta.
  simpl Plugin.config. simpl Plugin.context. simpl Plugin.config_path.
  cbn [Plugin.modules Plugin.layers Plugin.symbols_symbol_table_is_64bit
       Plugin.symbol_table_create Plugin.object_disk_signature
       Plugin.object_entry_str].
  rewrite Hk. simpl Plugin.and_then. rewrite Hm. simpl Plugin.and_then.
  rewrite Hl. cbn [Plugin.dict_get]. rewrite String.eqb_refl.
  simpl Plugin.and_then. rewrite Hcfg, Hphys.
  unfold Plugin.subscript_opt, Plugin.subscript. cbn [Plugin.dict_get].
  assert (String.eqb (Plugin.layer_name kernel) physical = false) as ->.
  { apply String.eqb_neq. intros E. apply Hne. symmetry. exact E. }
  reflexivity.
Qed.

Lemma X12_kernel_layer_witness :
  Plugin.generator
    (Plugin.with_layer
       (sample_plugin [("memory_layer", "memory_layer")] [("kernel", "kernel")])
       "layer_name"
       {| Plugin.name := "layer_name";
          Plugin.layer_config := [("memory_layer", "memory_layer")];
          Plugin.scan := fun _ => [0; 1; 2];
          Plugin.read := fun _ _ _ => Ok [x01] |})%string
  = Plugin.generator
      (sample_plugin [("memory_layer", "memory_layer")] [("kernel", "kernel")])%string.
Proof.
  apply (X12_kernel_layer_is_never_read
           (sample_plugin [("memory_layer", "memory_layer")] [("kernel", "kernel")])%string
           "kernel" "memory_layer"
           {| Plugin.layer_name := "layer_name";
              Plugin.symbol_table_name := "symbol_table_name1" |}
           (sample_kernel_layer [("memory_layer", "memory_layer")]%string)).
  - reflexivity.
  - reflexivity.
  - reflexivity.
  - reflexivity.
  - discriminate.
  - reflexivity.
Defined.

(** The sample plugin runs to the row of [sample_sector]. *)
Example sample_plugin_run :
  Plugin.generator
    (sample_plugin [("memory_layer", "memory_layer")] [("kernel", "kernel")])%string
  = ([EvRead 0 512 true; EvYield 0 sample_row], Plugin.Loop Finished).
Proof. vm_compute. reflexivity. Qed.

(** ** The run at one hit *)

Lemma loop_reads_finished (ctx : Context) (hits : list Z) :
  forall st : option bool,
    snd (loop ctx st hits) = Finished ->
    reads (fst (loop ctx st hits))
    = map (fun q => (mbr_start_offset q, mbr_length, true)) hits.
Proof.
  induction hits as [|offset rest IH]; intros st; simpl; [reflexivity|].
  pose proof (loop_body_reads ctx st offset) as Hr.
  destruct (loop_body ctx st offset) as [evs [st1|e]]; simpl in Hr; [|discriminate].
  specialize (IH st1). destruct (loop ctx st1 rest) as [evs' o]. simpl in *.
  intros Ho. rewrite reads_app, Hr, (IH Ho). reflexivity.
Qed.

(** The run up to a hit that is reached, and from it on. *)
Lemma run_reaches_hit (ctx : Context) (pre rest : list Z) (p : Z) :
  layer_scan ctx mbr_signature = pre ++ p :: rest ->
  snd (loop ctx None pre) = Finished ->
  exists st,
    _generator ctx
    = (fst (loop ctx None pre) ++ fst (loop ctx st (p :: rest)),
       snd (loop ctx st (p :: rest))).
Proof.
  intros Hscan Hpre. unfold _generator. rewrite Hscan.
  apply loop_app. exact Hpre.
Qed.

(** What the loop does from a hit on, over a layer that honours the contract
    of a padded read, by the sector read for the hit. *)
Lemma loop_at_hit (ctx : Context) (st : option bool) (p : Z) (rest : list Z) :
  padded_read_exact ctx ->
  loop ctx st (p :: rest)
  = match layer_read ctx (mbr_start_offset p) mbr_length true with
    | Raise e => ([EvRead (mbr_start_offset p) mbr_length true], Raised e)
    | Ok full_mbr =>
        if zero_test (boot_code_of full_mbr) then
          (EvRead (mbr_start_offset p) mbr_length true
             :: EvLog LOGLEVEL_VV not_valid_message p
             :: fst (loop ctx None rest),
           snd (loop ctx None rest))
        else
          match make_row ctx p full_mbr with
          | Ok r =>
              (EvRead (mbr_start_offset p) mbr_length true
                 :: EvYield 0 r :: fst (loop ctx None rest),
               snd (loop ctx None rest))
          | Raise e => ([EvRead (mbr_start_offset p) mbr_length true], Raised e)
          end
    end.
Proof.
  intros Hpad. simpl. unfold loop_body. cbv zeta.
  destruct (layer_read ctx (mbr_start_offset p) mbr_length true)
    as [full_mbr|e] eqn:Hread; [|reflexivity].
  destruct (padded_boot_code ctx p full_mbr Hpad Hread) as [_ Htr].
  rewrite (bind_all_zeros_truthy st _ Htr).
  destruct (zero_test (boot_code_of full_mbr)); simpl.
  - rewrite (loop_state_irrelevant ctx (Some true) None rest Hpad).
    destruct (loop ctx None rest). reflexivity.
  - destruct (make_row ctx p full_mbr); [|reflexivity].
    rewrite (loop_state_irrelevant ctx (Some false) None rest Hpad).
    destruct (loop ctx None rest). reflexivity.
Qed.

(** ** The claims, at the level of the run *)

(** C2: in a run over a layer that honours the contract of a padded read,
    every hit processed before a reached hit [p] was read at its own offset
    minus 510, for 512 bytes, with padding, and the next event of the run is
    the read for [p] at [p - 510], for 512 bytes, with padding.  The buffer
    that read returns has exactly 512 bytes, and its first 440 bytes are the
    boot code the run goes by: it logs the hit when they are all 0x00, and
    otherwise yields a row that carries them (or stops on a failed partition
    table read).  In the address space modelled from the spec such a read
    cannot fall short, wherever the sector lies. *)
Theorem C2_sector_read (ctx : Context) (pre rest : list Z) (p : Z) :
  padded_read_exact ctx ->
  layer_scan ctx mbr_signature = pre ++ p :: rest ->
  snd (loop ctx None pre) = Finished ->
  reads (fst (loop ctx None pre)) = map (fun q => (q - 510, 512, true)) pre /\
  (exists tl o,
     _generator ctx
     = (fst (loop ctx None pre) ++ EvRead (p - 510) 512 true :: tl, o) /\
     forall full_mbr,
       layer_read ctx (p - 510) 512 true = Ok full_mbr ->
       len full_mbr = 512 /\
       len (firstn 440 full_mbr) = 440 /\
       ((zero_test (firstn 440 full_mbr) = true /\
         exists tl', tl = EvLog LOGLEVEL_VV not_valid_message p :: tl') \/
        (zero_test (firstn 440 full_mbr) = false /\
         ((exists r tl',
             tl = EvYield 0 r :: tl' /\
             row_hexdump r = firstn 440 full_mbr /\
             dis_data (row_disasm r) = firstn 440 full_mbr) \/
          (exists e,
             make_row ctx p full_mbr = Raise e /\ tl = [] /\ o = Raised e))))) /\
  (forall data o, 0 <= o ->
     exists b, AddressSpace.read data o 512 true = Ok b /\ len b = 512).
Proof.
  intros Hpad Hscan Hpre. split; [|split].
  - apply (loop_reads_finished ctx pre None Hpre).
  - destruct (run_reaches_hit ctx pre rest p Hscan Hpre) as [st Hgen].
    rewrite (loop_at_hit ctx st p rest Hpad) in Hgen.
    change (mbr_start_offset p) with (p - 510) in Hgen.
    change mbr_length with 512 in Hgen.
    destruct (layer_read ctx (p - 510) 512 true) as [full_mbr|e] eqn:Hread.
    + assert (len full_mbr = 512) as Hlen
        by (apply (Hpad (p - 510) 512); [lia | exact Hread]).
      pose proof (boot_code_of_length full_mbr Hlen) as Hbc.
      change (boot_code_of full_mbr) with (firstn 440 full_mbr) in *.
      destruct (zero_test (firstn 440 full_mbr)) eqn:Hz.
      * eexists. eexists. split; [exact Hgen|].
        intros b Hb. injection Hb as <-.
        split; [exact Hlen|]. split; [exact Hbc|]. left.
        split; [exact Hz|]. eexists. reflexivity.
      * destruct (make_row ctx p full_mbr) as [r|e] eqn:Hrow.
        -- eexists. eexists. split; [exact Hgen|].
           intros b Hb. injection Hb as <-.
           split; [exact Hlen|]. split; [exact Hbc|]. right.
           split; [exact Hz|]. left. exists r. eexists.
           split; [reflexivity|].
           apply make_row_inv in Hrow. destruct Hrow as (info & sig & _ & _ & ->).
           split; reflexivity.
        -- exists [], (Raised e). split; [exact Hgen|].
           intros b Hb. injection Hb as <-.
           split; [exact Hlen|]. split; [exact Hbc|]. right.
           split; [exact Hz|]. right. exists e.
           split; [exact Hrow | split; reflexivity].
    + exists [], (Raised e). split; [exact Hgen|]. intros b Hb. discriminate Hb.
  - intros data o Ho.
    destruct (read_padded_total data o 512 Ho) as [b Hb]; [lia|].
    exists b. split; [exact Hb|].
    apply (read_padded_length data o 512 b); [lia | exact Hb].
Qed.

Lemma C2_sector_read_witness :
  padded_read_exact (AddressSpace.context (zeroed_space ++ sample_sector) false) /\
  reads (fst (loop (AddressSpace.context (zeroed_space ++ sample_sector) false)
                None [510]))
  = [(0, 512, true)] /\
  exists tl o,
    _generator (AddressSpace.context (zeroed_space ++ sample_sector) false)
    = (fst (loop (AddressSpace.context (zeroed_space ++ sample_sector) false)
              None [510])
         ++ EvRead (1488 - 510) 512 true :: tl, o) /\
    tl = [EvYield 0
            {| row_offset := 1488;
               row_disk_signature := row_disk_signature sample_row;
               row_bootcode_hash := row_bootcode_hash sample_row;
               row_full_bootcode_hash := row_full_bootcode_hash sample_row;
               row_partition_info := row_partition_info sample_row;
               row_disasm := row_disasm sample_row;
               row_hexdump := firstn 440 sample_sector |}].
Proof.
  split; [apply in_memory_padded_read_exact|].
  destruct (C2_sector_read
              (AddressSpace.context (zeroed_space ++ sample_sector) false)
              [510] [] 1488 (in_memory_padded_read_exact _ false))
    as (Hreads & (tl & o & Hgen & _) & _);
    [vm_compute; reflexivity | vm_compute; reflexivity |].
  split; [exact Hreads|].
  exists tl, o. split; [exact Hgen|].
  assert (fst (_generator (AddressSpace.context (zeroed_space ++ sample_sector) false))
          = fst (loop (AddressSpace.context (zeroed_space ++ sample_sector) false)
                   None [510])
              ++ EvRead (1488 - 510) 512 true :: tl) as Hfst
    by (rewrite Hgen; reflexivity).
  vm_compute in Hfst. injection Hfst as <-. vm_compute. reflexivity.
Defined.


(** The other half of the failure: after a valid sector, the hit with the
    empty slice gets a row. *)
Example empty_slice_after_valid_sector :
  map (fun r => (row_offset r, row_hexdump r))
    (rows (fst (_generator
       (scripted [510; 1022] [(0, sample_sector); (512, [])]))))
  = [(510, boot_code_of sample_sector); (1022, [])].
Proof. vm_compute. reflexivity. Qed.



(** C6: over a layer that honours the contract of a padded read, every
    emitted row goes with the sector of its own hit: the 512 bytes read at
    the row's offset minus 510.  The row's boot code is the first 440 bytes
    of that sector, its bootcode digest is the MD5 hex digest of that boot
    code and its full digest the MD5 hex digest of those 512 bytes, each
    computed by [md5] from its own input alone; both are 32 lowercase
    hexadecimal digits. *)
Theorem C6_digests (ctx : Context) (r : Row) :
  padded_read_exact ctx ->
  emitted ctx r ->
  In (row_offset r) (layer_scan ctx mbr_signature) /\
  exists full_mbr,
    layer_read ctx (row_offset r - 510) 512 true = Ok full_mbr /\
    len full_mbr = 512 /\
    row_hexdump r = firstn 440 full_mbr /\
    len (row_hexdump r) = 440 /\
    row_bootcode_hash r = Hashlib.hexlify (Hashlib.md5 (row_hexdump r)) /\
    row_full_bootcode_hash r = Hashlib.hexlify (Hashlib.md5 full_mbr) /\
    String.length (row_bootcode_hash r) = 32%nat /\
    lower_hex (row_bootcode_hash r) /\
    String.length (row_full_bootcode_hash r) = 32%nat /\
    lower_hex (row_full_bootcode_hash r).
Proof.
  intros Hpad H. apply emitted_inv in H.
  destruct H as (st & offset & full_mbr & Hin & Hread & _ & Hrow).
  apply make_row_inv in Hrow. destruct Hrow as (info & sig & _ & _ & ->).
  cbn [row_offset row_hexdump row_bootcode_hash row_full_bootcode_hash].
  assert (len full_mbr = 512) as Hlen.
  { apply (Hpad (mbr_start_offset offset) 512); [lia | exact Hread]. }
  split; [exact Hin|]. exists full_mbr.
  split; [exact Hread|]. split; [exact Hlen|].
  split; [reflexivity|].
  split; [exact (boot_code_of_length full_mbr Hlen)|].
  split; [reflexivity|]. split; [reflexivity|].
  split; [apply md5_hexdigest_length|]. split; [apply hexlify_lower|].
  split; [apply md5_hexdigest_length | apply hexlify_lower].
Qed.

Lemma C6_digests_witness :
  padded_read_exact (AddressSpace.context sample_sector false) /\
  emitted (AddressSpace.context sample_sector false) sample_row /\
  In 510 (AddressSpace.scan_from mbr_signature sample_sector 0) /\
  exists full_mbr,
    AddressSpace.read sample_sector (510 - 510) 512 true = Ok full_mbr /\
    len full_mbr = 512 /\
    boot_code_of sample_sector = firstn 440 full_mbr /\
    len (boot_code_of sample_sector) = 440 /\
    "b16ebfbb2a5ef2b71ac4b52100aee2af"%string
    = Hashlib.hexlify (Hashlib.md5 (boot_code_of sample_sector)) /\
    "07becccde16870d89e6d2650ec1abf69"%string
    = Hashlib.hexlify (Hashlib.md5 full_mbr) /\
    String.length "b16ebfbb2a5ef2b71ac4b52100aee2af" = 32%nat /\
    lower_hex "b16ebfbb2a5ef2b71ac4b52100aee2af" /\
    String.length "07becccde16870d89e6d2650ec1abf69" = 32%nat /\
    lower_hex "07becccde16870d89e6d2650ec1abf69".
Proof.
  split; [apply in_memory_padded_read_exact|].
  split; [exact sample_row_emitted|].
  exact (C6_digests (AddressSpace.context sample_sector false) sample_row
           (in_memory_padded_read_exact sample_sector false) sample_row_emitted).
Defined.

(** C7, as stated, fails: in [low_hit_space] the scanner hits the magic at
    offset 0, and the run calls [layer.read] at -510 for it: the hit is
    neither skipped nor is its offset clamped. *)
Lemma C7_low_hit_counterexample :
  ~ (forall p,
       In p (layer_scan (AddressSpace.context low_hit_space false) mbr_signature) ->
       p < 510 ->
       forall o n pad,
         In (o, n, pad)
            (reads (fst (_generator (AddressSpace.context low_hit_space false)))) ->
         0 <= o).
Proof.
  intros H.
  assert (0 <= -510) as Hneg; [|lia].
  apply (H 0) with (n := 512) (pad := true).
  - vm_compute. left. reflexivity.
  - lia.
  - vm_compute. left. reflexivity.
Qed.

(** C7, amended: for a match at an offset below 510 the sector start is
    negative and the generator neither skips the match nor clamps the
    offset: once the hits before it are processed, the next event of the run
    is the call of [layer.read] at that negative offset, for 512 bytes with
    padding, and an exception the layer raises for it ends the run there. *)
Theorem C7_low_hit_reads_negative_offset (ctx : Context) (pre rest : list Z)
  (p : Z) :
  layer_scan ctx mbr_signature = pre ++ p :: rest ->
  snd (loop ctx None pre) = Finished ->
  p < 510 ->
  mbr_start_offset p = p - 510 /\
  mbr_start_offset p < 0 /\
  exists tl o,
    _generator ctx
    = (fst (loop ctx None pre) ++ EvRead (p - 510) 512 true :: tl, o) /\
    forall e,
      layer_read ctx (p - 510) 512 true = Raise e -> tl = [] /\ o = Raised e.
Proof.
  intros Hscan Hpre Hp. split; [reflexivity|]. split.
  - unfold mbr_start_offset, mbr_length, len. simpl. lia.
  - destruct (run_reaches_hit ctx pre rest p Hscan Hpre) as [st Hgen].
    simpl in Hgen.
    destruct (loop_body_cases ctx st p)
      as [(e & Hb) | [(full_mbr & r & Hread & _ & _ & Hb) | (full_mbr & Hread & _ & Hb)]];
      rewrite Hb in Hgen;
      change (mbr_start_offset p) with (p - 510) in *;
      change mbr_length with 512 in *.
    + exists [], (Raised e). split; [exact Hgen|].
      intros e' He'. split; [reflexivity|].
      assert (loop_body ctx st p = ([EvRead (p - 510) 512 true], Raise e')) as Hb'.
      { unfold loop_body. cbv zeta.
        change (mbr_start_offset p) with (p - 510). change mbr_length with 512.
        rewrite He'. reflexivity. }
      rewrite Hb in Hb'. injection Hb' as ->. reflexivity.
    + destruct (loop ctx (Some false) rest) as [evs o]. simpl in Hgen.
      exists (EvYield 0 r :: evs), o. split; [exact Hgen|].
      intros e He. rewrite Hread in He. discriminate He.
    + destruct (loop ctx (Some true) rest) as [evs o]. simpl in Hgen.
      exists (EvLog LOGLEVEL_VV not_valid_message p :: evs), o.
      split; [exact Hgen|].
      intros e He. rewrite Hread in He. discriminate He.
Qed.

Lemma C7_low_hit_witness :
  0 < 510 /\
  mbr_start_offset 0 = -510 /\
  exists tl o,
    _generator (AddressSpace.context low_hit_space false)
    = (fst (loop (AddressSpace.context low_hit_space false) None [])
         ++ EvRead (0 - 510) 512 true :: tl, o) /\
    tl = [] /\ o = Raised (InvalidAddressException (-510)).
Proof.
  split; [lia|].
  destruct (C7_low_hit_reads_negative_offset
              (AddressSpace.context low_hit_space false) [] [512] 0)
    as (Hstart & _ & tl & o & Hgen & Hraise);
    [vm_compute; reflexivity | reflexivity | lia |].
  split; [exact Hstart|].
  exists tl, o. split; [exact Hgen|].
  apply (Hraise (InvalidAddressException (-510))). reflexivity.
Defined.
